(** * formField/index.jsx : the settings form field

    A shallow embedding of
    [static/sentry/app/views/settings/components/forms/formField/index.jsx]:
    the normalisation of handler arguments ([getValueFromEvent]), the two
    components [ControlState] and [FormField] with their event handlers and
    their [render] methods, and the properties the specification states
    about them.

    Conventions of the embedding.
    - JavaScript values are the inductive [value]; numbers are the
      integer-valued ones (no NaN, no fractions), objects are property lists
      without getters.
    - Reading a property of [undefined] or [null] throws a TypeError; this is
      the only exception the file can raise by itself, and it is modelled.
    - The form model, the caller-supplied callbacks and the DOM element are
      collaborators outside this file.  A call to one of them is recorded, in
      order, in a trace of [call]s, and is taken to return normally.  What the
      form model answers ([getValue], [getError], [getFieldState]) is a
      snapshot given as a record of functions.
    - A React element tree is the inductive [node]; an [<Observer>] holds the
      result of its render function for the snapshot at hand. *)

From Stdlib Require Import String List Bool ZArith Lia.
Import ListNotations.
Local Open Scope string_scope.
Local Open Scope list_scope.

#[local] Set Warnings "-register-all".

(* ------------------------------------------------------------------ *)
(** ** JavaScript values *)

Inductive value : Type :=
| VUndefined
| VNull
| VBool (b : bool)
| VNum (z : Z)
| VStr (s : string)
| VFun (f : nat)                            (* a function, by identity *)
| VObj (fields : list (string * value)).    (* a plain object *)

(** ToBoolean: what [if (v)], [!v], [a && b] and [a || b] test. *)
Definition truthy (v : value) : bool :=
  match v with
  | VUndefined | VNull => false
  | VBool b => b
  | VNum z => negb (Z.eqb z 0)
  | VStr s => negb (String.eqb s "")
  | VFun _ | VObj _ => true
  end.

Definition is_undefined (v : value) : bool :=
  match v with VUndefined => true | _ => false end.

(** [v === null] *)
Definition is_null (v : value) : bool :=
  match v with VNull => true | _ => false end.

(** [v === s] for a string literal [s]: strict equality does not convert. *)
Definition strict_eq_str (v : value) (s : string) : bool :=
  match v with VStr s' => String.eqb s' s | _ => false end.

(** [a || b] and [a && b] *)
Definition js_or (a b : value) : value := if truthy a then a else b.
Definition js_and (a b : value) : value := if truthy a then b else a.

Fixpoint assoc {A : Type} (k : string) (l : list (string * A)) : option A :=
  match l with
  | [] => None
  | (k', a) :: l' => if String.eqb k k' then Some a else assoc k l'
  end.

(* ------------------------------------------------------------------ *)
(** ** Completions, calls to collaborators, and the handler monad *)

Inductive error : Type :=
| TypeError (property : string) (base : value).

Inductive completion (A : Type) : Type :=
| Ok (a : A)
| Throw (e : error).
Arguments Ok {A} a.
Arguments Throw {A} e.

(** [v.k] for the property names this file reads ([target], [value], [key],
    [hash]): none of them is a property of a primitive or of a function, so
    only a plain object can answer something other than [undefined]. *)
Definition get (v : value) (k : string) : completion value :=
  match v with
  | VUndefined | VNull => Throw (TypeError k v)
  | VObj fields => Ok (match assoc k fields with Some x => x | None => VUndefined end)
  | _ => Ok VUndefined
  end.

(** The form model ([this.context.form]): the notifications this file sends
    to it, and the snapshot of what it answers when read. *)
Module FormModel.

Inductive method : Type :=
| setValue
| handleBlurField
| handleSaveField
| handleCancelSaveField.

Record snapshot : Type := {
  getValue : string -> value;
  getError : string -> value;
  getFieldState : string -> value -> value;
  initialData : value;
}.

End FormModel.

Inductive call : Type :=
| CallProp (f : nat) (args : list value)       (* a caller-supplied callback *)
| CallModel (m : FormModel.method) (args : list value)   (* model.m(...args) *)
| CallFocus (element : nat).                   (* ref.focus() *)

Definition trace := list call.

(** A computation extends the trace and completes. *)
Definition M (A : Type) : Type := trace -> completion A * trace.

Definition ret {A} (a : A) : M A := fun tr => (Ok a, tr).

Definition bind {A B} (m : M A) (k : A -> M B) : M B :=
  fun tr =>
    match m tr with
    | (Ok a, tr') => k a tr'
    | (Throw e, tr') => (Throw e, tr')
    end.

Definition lift {A} (c : completion A) : M A := fun tr => (c, tr).

Definition emit (c : call) : M unit := fun tr => (Ok tt, tr ++ [c]).

Declare Scope js_scope.
Delimit Scope js_scope with js.
Notation "x <- m ;; k" := (bind m (fun x => k))
  (at level 61, m at next level, right associativity) : js_scope.
Notation "m ;; k" := (bind m (fun _ => k))
  (at level 61, right associativity) : js_scope.

(** Run a handler from the empty trace. *)
Definition run {A} (m : M A) : completion A * trace := m [].

(** The [i]-th actual argument of a call [f(...args)]. *)
Definition arg (i : nat) (args : list value) : value := nth i args VUndefined.

(* ------------------------------------------------------------------ *)
(** ** utils.defined and getValueFromEvent *)

(** Modelled from the spec: [defined] is imported from [utils], which is not
    part of the sources at hand.  The specification describes the test it
    serves as "a value is explicitly supplied" next to an event; the helper is
    taken to be what its name says, that its argument is neither [undefined]
    nor [null]. *)
Definition defined (item : value) : bool :=
  negb (is_undefined item) && negb (is_null item).

Record normalized : Type := Normalized {
  nvalue : value;
  nevent : value;
}.

(** [event && event.target && event.target.value], which groups to the left
    and reads [event.target] a second time for its [value]. *)
Definition target_value (event : value) : completion value :=
  match (if truthy event then get event "target" else Ok event) with
  | Throw e => Throw e
  | Ok a =>
      if truthy a then
        match get event "target" with
        | Throw e => Throw e
        | Ok t => get t "value"
        end
      else Ok a
  end.

Definition getValueFromEvent (valueOrEvent e : value) : completion normalized :=
  let event := js_or e valueOrEvent in
  match (if defined e then Ok valueOrEvent else target_value event) with
  | Throw err => Throw err
  | Ok v => Ok {| nvalue := v; nevent := event |}
  end.

(** [getValueFromEvent(...args)] *)
Definition getValueFromEvent_spread (args : list value) : completion normalized :=
  getValueFromEvent (arg 0 args) (arg 1 args).

(* ------------------------------------------------------------------ *)
(** ** React element trees *)

Module Tag.
Inductive t : Type :=
| Fragment | Observer
| ControlStateWrapper | FormSpinner | FormFieldIsSaved | FormFieldError
| InlineSvg | FormFieldErrorReason
| Field | FieldControl | ControlState
| children                      (* the control the caller wraps: this.props.children *)
| ReturnButtonStyled
| PanelAlert | MessageAndActions | div | Actions | CancelButton | SaveButton.

Definition eqb (a b : t) : bool :=
  match a, b with
  | Fragment, Fragment | Observer, Observer
  | ControlStateWrapper, ControlStateWrapper | FormSpinner, FormSpinner
  | FormFieldIsSaved, FormFieldIsSaved | FormFieldError, FormFieldError
  | InlineSvg, InlineSvg | FormFieldErrorReason, FormFieldErrorReason
  | Field, Field | FieldControl, FieldControl | ControlState, ControlState
  | children, children | ReturnButtonStyled, ReturnButtonStyled
  | PanelAlert, PanelAlert | MessageAndActions, MessageAndActions
  | div, div | Actions, Actions | CancelButton, CancelButton
  | SaveButton, SaveButton => true
  | _, _ => false
  end.
End Tag.

(** The methods of a FormField instance that [render] hands out as props. *)
Module Bound.
Inductive t : Type :=
| handleKeyDown | handleChange | handleBlur | handleSaveField | handleCancelField.
End Bound.

Inductive prop (N : Type) : Type :=
| PVal (v : value)          (* a JavaScript value, passed through as it is *)
| PBound (h : Bound.t)      (* this.handleX *)
| PInputMount               (* this.handleInputMount, a ref callback *)
| PModel                    (* the form model *)
| PNode (n : N).            (* an element built by this file *)
Arguments PVal {N} v.
Arguments PBound {N} h.
Arguments PInputMount {N}.
Arguments PModel {N}.
Arguments PNode {N} n.

Inductive node : Type :=
| NVal (v : value)          (* {v} in child position; null and false show nothing *)
| NLocale (msg : string)    (* {t('msg')} *)
| NElem (tag : Tag.t) (props : list (string * prop node)) (children : list node).

Definition props_t := list (string * prop node).

(** Props are kept in the order the source writes them.  A later attribute,
    or a later key of an object literal, overrides an earlier one of the same
    name: a component reads the last binding. *)
Definition prop_of (k : string) (ps : props_t) : option (prop node) :=
  assoc k (rev ps).

(** [{...src}] put after the bindings [dst]. *)
Definition spread (dst src : props_t) : props_t := dst ++ src.

(** An element written with a JSX child has that child as its [children]
    prop, whatever the props spread into it hold under that name: the child
    is kept in the child list of the node, and a [children] binding among the
    props is dropped. *)
Definition with_jsx_child (ps : props_t) : props_t :=
  filter (fun kp => negb (fst kp =? "children")%string) ps.

(** [a && <Elem/>] in child position. *)
Definition node_and (a : value) (n : node) : node :=
  if truthy a then n else NVal a.

(** The child of [n] reached by following the child indices of [path]. *)
Fixpoint child_at (path : list nat) (n : node) : option node :=
  match path with
  | [] => Some n
  | i :: path' =>
      match n with
      | NElem _ _ ch =>
          match nth_error ch i with
          | Some c => child_at path' c
          | None => None
          end
      | _ => None
      end
  end.

(** Does an element with tag [tg] occur in [n], among its descendants or in
    an element passed as a prop? *)
Fixpoint occurs (tg : Tag.t) (n : node) : bool :=
  match n with
  | NVal _ | NLocale _ => false
  | NElem tg' ps ch =>
      Tag.eqb tg tg'
      || existsb (fun kp => match kp with
                            | (_, PNode m) => occurs tg m
                            | _ => false
                            end) ps
      || existsb (occurs tg) ch
  end.

(* ------------------------------------------------------------------ *)
(** ** ControlState *)

Module ControlState.

Record Props : Type := {
  model : FormModel.snapshot;
  name : string;
}.

Section WithFormState.

(** [FormState.SAVING] and [FormState.READY], the keys of
    [components/forms/state], which this file imports and only hands on
    to the model. *)
Variables SAVING READY : value.

Definition savingIndicator : node :=
  NElem Tag.ControlStateWrapper [] [NElem Tag.FormSpinner [] []].

Definition savedIndicator : node :=
  NElem Tag.ControlStateWrapper []
    [NElem Tag.FormFieldIsSaved []
       [NElem Tag.InlineSvg
          [("src", PVal (VStr "icon-checkmark-sm")); ("size", PVal (VStr "18px"))]
          []]].

Definition errorIndicator : node :=
  NElem Tag.ControlStateWrapper []
    [NElem Tag.FormFieldError []
       [NElem Tag.InlineSvg
          [("src", PVal (VStr "icon-warning-sm")); ("size", PVal (VStr "18px"))]
          []]].

(** The render function of the first [<Observer>]. *)
Definition renderSaving (p : Props) : node :=
  let isSaving := FormModel.getFieldState (model p) (name p) SAVING in
  let isSaved := FormModel.getFieldState (model p) (name p) READY in
  if truthy isSaving then savingIndicator
  else if truthy isSaved then savedIndicator
  else NVal VNull.

(** The render function of the second [<Observer>]. *)
Definition renderError (p : Props) : node :=
  let error := FormModel.getError (model p) (name p) in
  if negb (truthy error) then NVal VNull
  else errorIndicator.

Definition render (p : Props) : node :=
  NElem Tag.Fragment []
    [NElem Tag.Observer [] [renderSaving p];
     NElem Tag.Observer [] [renderError p]].

End WithFormState.

End ControlState.

(* ------------------------------------------------------------------ *)
(** ** FormField *)

(** What a ref callback receives: the mounted element, or [null] when it
    unmounts. *)
Inductive ref : Type :=
| RefNull
| RefElement (element : nat).

Module FormField.

(** [this.props], typed as [propTypes] declares them; [others] holds every
    prop the component does not name ([style], [children], [label], ...). *)
Record Props : Type := {
  name : string;
  className : value;
  saveOnBlur : value;
  saveMessage : value;
  saveMessageAlertType : value;
  hideErrorMessage : value;
  flexibleControlStateSize : value;
  onChange : option nat;
  onBlur : option nat;
  onKeyDown : option nat;
  others : list (string * value);
}.

(** [this.context] *)
Record Context : Type := {
  location : value;
  form : FormModel.snapshot;
}.

(** What [<Field>] passes to its render function. *)
Record FieldArgs : Type := {
  alignRight : value;
  inline : value;
  disabled : value;
  disabledReason : value;
}.

Definition getModel (ctx : Context) : FormModel.snapshot := form ctx.

Definition getError (p : Props) (ctx : Context) : value :=
  FormModel.getError (getModel ctx) (name p).

Definition getId (p : Props) : string := name p.

(** [this.input]: [None] until the first assignment. *)
Definition input_t := option ref.

Definition input_truthy (i : input_t) : bool :=
  match i with Some (RefElement _) => true | _ => false end.

(** The early [return]s leave [this.input] as it was. *)
Definition handleInputMount (p : Props) (ctx : Context)
           (input : input_t) (r : ref) : M input_t :=
  match r with
  | RefElement el =>
      if negb (input_truthy input) then
        (hash <- lift (if truthy (location ctx)
                       then get (location ctx) "hash"
                       else Ok (location ctx)) ;;
         if negb (truthy hash) then ret input
         else if negb (strict_eq_str hash ("#" ++ name p)) then ret input
         else (emit (CallFocus el) ;; ret (Some r)))%js
      else ret (Some r)
  | RefNull => ret (Some r)
  end.

(** [if (f) f(value, event)] for a callback prop. *)
Definition call_prop (f : option nat) (nv : normalized) : M unit :=
  match f with
  | Some f => emit (CallProp f [nvalue nv; nevent nv])
  | None => ret tt
  end.

Definition handleChange (p : Props) (ctx : Context) (args : list value) : M unit :=
  (nv <- lift (getValueFromEvent_spread args) ;;
   call_prop (onChange p) nv ;;
   emit (CallModel FormModel.setValue [VStr (name p); nvalue nv]))%js.

Definition handleBlur (p : Props) (ctx : Context) (args : list value) : M unit :=
  (nv <- lift (getValueFromEvent_spread args) ;;
   call_prop (onBlur p) nv ;;
   emit (CallModel FormModel.handleBlurField [VStr (name p); nvalue nv]))%js.

Definition handleKeyDown (p : Props) (ctx : Context) (args : list value) : M unit :=
  (nv <- lift (getValueFromEvent_spread args) ;;
   key <- lift (get (nevent nv) "key") ;;
   (if strict_eq_str key "Enter"
    then emit (CallModel FormModel.handleBlurField [VStr (name p); nvalue nv])
    else ret tt) ;;
   call_prop (onKeyDown p) nv)%js.

Definition handleSaveField (p : Props) (ctx : Context) (args : list value) : M unit :=
  let model := getModel ctx in
  emit (CallModel FormModel.handleSaveField
          [VStr (name p); FormModel.getValue model (name p)]).

Definition handleCancelField (p : Props) (ctx : Context) (args : list value) : M unit :=
  emit (CallModel FormModel.handleCancelSaveField [VStr (name p)]).

(** Calling the method a prop is bound to. *)
Definition invoke (h : Bound.t) : Props -> Context -> list value -> M unit :=
  match h with
  | Bound.handleKeyDown => handleKeyDown
  | Bound.handleChange => handleChange
  | Bound.handleBlur => handleBlur
  | Bound.handleSaveField => handleSaveField
  | Bound.handleCancelField => handleCancelField
  end.

(** A button calls its [onClick] prop with the click's arguments. *)
Definition click (n : node) (p : Props) (ctx : Context) (args : list value)
  : option (M unit) :=
  match n with
  | NElem _ ps _ =>
      match prop_of "onClick" ps with
      | Some (PBound h) => Some (invoke h p ctx args)
      | _ => None
      end
  | _ => None
  end.

Definition callback_prop (k : string) (f : option nat) : props_t :=
  match f with
  | Some f => [(k, PVal (VFun f))]
  | None => []
  end.

(** [...props] of [render]: what is left of [this.props] once [className],
    [name], [hideErrorMessage], [flexibleControlStateSize], [saveOnBlur],
    [saveMessage] and [saveMessageAlertType] are taken out. *)
Definition rest (p : Props) : props_t :=
  callback_prop "onChange" (onChange p)
  ++ callback_prop "onBlur" (onBlur p)
  ++ callback_prop "onKeyDown" (onKeyDown p)
  ++ map (fun kv => (fst kv, PVal (snd kv))) (others p).

(** The props of [<this.props.children ... />]. *)
Definition controlProps (p : Props) (ctx : Context) (fa : FieldArgs) : props_t :=
  let id := getId p in
  let model := getModel ctx in
  let error := getError p ctx in
  let value := FormModel.getValue model (name p) in
  let object :=
    spread [] (rest p)
    ++ [("name", PVal (VStr (name p)));
        ("id", PVal (VStr id));
        ("onKeyDown", PBound Bound.handleKeyDown);
        ("onChange", PBound Bound.handleChange);
        ("onBlur", PBound Bound.handleBlur);
        ("value", PVal (if is_null value then VStr "" else value));
        ("error", PVal error);
        ("disabled", PVal (disabled fa))] in
  spread [("innerRef", PInputMount)] object
  ++ [("initialData", PVal (FormModel.initialData model))].

(** The render function of the [errorState] observer. *)
Definition renderErrorState (p : Props) (ctx : Context) : node :=
  let error := getError p ctx in
  let shouldShowErrorMessage :=
    js_and error (VBool (negb (truthy (hideErrorMessage p)))) in
  if negb (truthy shouldShowErrorMessage) then NVal VNull
  else NElem Tag.FormFieldErrorReason [] [NVal error].

(** The render function of the observer around the control. *)
Definition renderControl (p : Props) (ctx : Context) (fa : FieldArgs) : node :=
  let model := getModel ctx in
  let showReturnButton :=
    FormModel.getFieldState model (name p) (VStr "showReturnButton") in
  NElem Tag.Fragment []
    [NElem Tag.children (controlProps p ctx fa) [];
     node_and showReturnButton (NElem Tag.ReturnButtonStyled [] [])].

(** The render function [<Field>] is given as its child. *)
Definition renderField (p : Props) (ctx : Context) (fa : FieldArgs) : node :=
  NElem Tag.FieldControl
    [("disabled", PVal (disabled fa));
     ("disabledReason", PVal (disabledReason fa));
     ("inline", PVal (inline fa));
     ("alignRight", PVal (alignRight fa));
     ("flexibleControlStateSize", PVal (flexibleControlStateSize p));
     ("controlState",
      PNode (NElem Tag.ControlState
               [("model", PModel); ("name", PVal (VStr (name p)))] []));
     ("errorState", PNode (NElem Tag.Observer [] [renderErrorState p ctx]))]
    [NElem Tag.Observer [] [renderControl p ctx fa]].

(** The render function of the observer of the inline save bar. *)
Definition renderSaveBar (p : Props) (ctx : Context) : node :=
  let model := getModel ctx in
  let showFieldSave := FormModel.getFieldState model (name p) (VStr "showSave") in
  if negb (truthy showFieldSave) then NVal VNull
  else
    NElem Tag.PanelAlert [("type", PVal (saveMessageAlertType p))]
      [NElem Tag.MessageAndActions []
         [NElem Tag.div [] [NVal (saveMessage p)];
          NElem Tag.Actions []
            [NElem Tag.CancelButton
               [("onClick", PBound Bound.handleCancelField)]
               [NLocale "Cancel"];
             NElem Tag.SaveButton
               [("priority", PVal (VStr "primary"));
                ("type", PVal (VStr "button"));
                ("onClick", PBound Bound.handleSaveField)]
               [NLocale "Save"]]]].

Definition saveOnBlurFieldOverride (p : Props) : bool :=
  negb (is_undefined (saveOnBlur p)) && negb (truthy (saveOnBlur p)).

Definition render (p : Props) (ctx : Context) (fa : FieldArgs) : node :=
  let id := getId p in
  NElem Tag.Fragment []
    [NElem Tag.Field
       (with_jsx_child
          (spread [("id", PVal (VStr id));
                   ("name", PVal (VStr (name p)));
                   ("className", PVal (className p))]
                  (rest p)))
       [renderField p ctx fa];
     if saveOnBlurFieldOverride p
     then NElem Tag.Observer [] [renderSaveBar p ctx]
     else NVal (VBool false)].

(** The calls made over a sequence of ref callbacks, each with the context
    of its moment, starting from [input]. *)
Fixpoint mounts (p : Props) (input : input_t) (rs : list (Context * ref))
  : M input_t :=
  match rs with
  | [] => ret input
  | (ctx, r) :: rs' =>
      (input' <- handleInputMount p ctx input r ;; mounts p input' rs')%js
  end.

End FormField.

(** How often [focus] was called in a trace. *)
Definition focus_count (tr : trace) : nat :=
  length (filter (fun c => match c with CallFocus _ => true | _ => false end) tr).

(* ------------------------------------------------------------------ *)
(** ** A sample field *)

Module Example.

(** A model answering [v] as every field value, [showSave] to the
    'showSave' state key and nothing else. *)
Definition model (v showSave : value) : FormModel.snapshot :=
  {| FormModel.getValue := fun _ => v;
     FormModel.getError := fun _ => VUndefined;
     FormModel.getFieldState :=
       fun _ k => if strict_eq_str k "showSave" then showSave else VUndefined;
     FormModel.initialData := VObj [] |}.

(** The field named email. *)
Definition props (saveOnBlur : value) (onKeyDown : option nat) : FormField.Props :=
  {| FormField.name := "email";
     FormField.className := VUndefined;
     FormField.saveOnBlur := saveOnBlur;
     FormField.saveMessage := VStr "Changing the address sends a mail";
     FormField.saveMessageAlertType := VStr "info";
     FormField.hideErrorMessage := VBool false;
     FormField.flexibleControlStateSize := VBool false;
     FormField.onChange := None;
     FormField.onBlur := None;
     FormField.onKeyDown := onKeyDown;
     FormField.others := [("label", VStr "Email")] |}.

Definition context (hash : string) (m : FormModel.snapshot) : FormField.Context :=
  {| FormField.location := VObj [("hash", VStr hash)];
     FormField.form := m |}.

Definition fieldArgs : FormField.FieldArgs :=
  {| FormField.alignRight := VBool false;
     FormField.inline := VBool true;
     FormField.disabled := VBool false;
     FormField.disabledReason := VUndefined |}.

(** A keydown event of the Enter key on an input holding "typed". *)
Definition enterEvent : value :=
  VObj [("key", VStr "Enter"); ("target", VObj [("value", VStr "typed")])].

End Example.

(* ------------------------------------------------------------------ *)
(** ** Vocabulary of the statements *)

(** The calls [if (f) f(value, event)] adds to a trace. *)
Definition prop_calls (f : option nat) (nv : normalized) : trace :=
  match f with
  | Some f => [CallProp f [nvalue nv; nevent nv]]
  | None => []
  end.

(** The notification handleKeyDown sends for the key it read. *)
Definition enter_calls (name : string) (key : value) (nv : normalized) : trace :=
  if strict_eq_str key "Enter"
  then [CallModel FormModel.handleBlurField [VStr name; nvalue nv]]
  else [].

(** The test [occurs] applies to each prop. *)
Definition prop_occurs (tg : Tag.t) (kp : string * prop node) : bool :=
  match kp with
  | (_, PNode m) => occurs tg m
  | _ => false
  end.

(** The tags of the inline save bar. *)
Definition bar_tag (tg : Tag.t) : bool :=
  match tg with
  | Tag.PanelAlert | Tag.MessageAndActions | Tag.Actions
  | Tag.CancelButton | Tag.SaveButton => true
  | _ => false
  end.

(** The two buttons of the inline save bar. *)
Definition cancelButton : node :=
  NElem Tag.CancelButton
    [("onClick", PBound Bound.handleCancelField)]
    [NLocale "Cancel"].

Definition saveButton : node :=
  NElem Tag.SaveButton
    [("priority", PVal (VStr "primary"));
     ("type", PVal (VStr "button"));
     ("onClick", PBound Bound.handleSaveField)]
    [NLocale "Save"].

(** The location's fragment identifier is exactly [#<name>]. *)
Definition fragment_names_field (p : FormField.Props) (ctx : FormField.Context) : bool :=
  match get (FormField.location ctx) "hash" with
  | Ok hash => strict_eq_str hash ("#" ++ FormField.name p)
  | Throw _ => false
  end.

Definition is_element (r : ref) : bool :=
  match r with RefElement _ => true | RefNull => false end.

(** Every callback of the sequence carries an element. *)
Definition all_elements (rs : list (FormField.Context * ref)) : Prop :=
  Forall (fun cr => is_element (snd cr) = true) rs.

(** At no callback of the sequence does the fragment name the field. *)
Definition never_named (p : FormField.Props) (rs : list (FormField.Context * ref)) : Prop :=
  Forall (fun cr => fragment_names_field p (fst cr) = false) rs.

(** A plain object, as opposed to a primitive or a function. *)
Definition is_object (v : value) : bool :=
  match v with VObj _ => true | _ => false end.

(** The notifications to the form model in a trace. *)
Definition model_calls (tr : trace) : trace :=
  filter (fun c => match c with CallModel _ _ => true | _ => false end) tr.

(** The value the caller gave for the prop [k], among the props the
    component does not name: the last binding counts. *)
Definition caller_prop (k : string) (p : FormField.Props) : option value :=
  assoc k (rev (FormField.others p)).

(** The keys [render] writes itself into the props of the control, after the
    caller's. *)
Definition control_keys : list string :=
  ["name"; "id"; "onKeyDown"; "onChange"; "onBlur"; "value"; "error";
   "disabled"; "initialData"].

Definition is_control_key (k : string) : bool :=
  existsb (String.eqb k) control_keys.



(** The first callback of a sequence at which the fragment names the field. *)
Definition first_named (p : FormField.Props) (rs : list (FormField.Context * ref))
  : option (FormField.Context * ref) :=
  find (fun cr => fragment_names_field p (fst cr)) rs.

(** The tooltip is shown for a truthy error unless [hideErrorMessage]. *)
Definition showsErrorMessage (p : FormField.Props) (ctx : FormField.Context) : bool :=
  truthy (FormField.getError p ctx) && negb (truthy (FormField.hideErrorMessage p)).

(** The call [c] is [focus] on an element some callback of [rs] carries
    while the fragment names the field. *)
Definition focus_of_named (p : FormField.Props) (rs : list (FormField.Context * ref))
           (c : call) : Prop :=
  exists ctx el,
    c = CallFocus el
    /\ In (ctx, RefElement el) rs
    /\ fragment_names_field p ctx = true.


(* ------------------------------------------------------------------ *)
(** ** Normalisation of handler arguments *)

Lemma truthy_get (v : value) (k : string) :
  truthy v = true -> exists x, get v k = Ok x.
Proof.
  destruct v; simpl; intros H; try discriminate; eauto.
Qed.

Lemma target_value_total (event : value) :
  exists x, target_value event = Ok x.
Proof.
  unfold target_value.
  destruct (truthy event) eqn:He.
  - destruct (truthy_get event "target" He) as [t Ht]. rewrite Ht.
    destruct (truthy t) eqn:Ht'.
    + apply (truthy_get t "value" Ht').
    + eauto.
  - rewrite He. eauto.
Qed.

(** Normalisation never throws: the [&&] chain guards each property read. *)
Lemma getValueFromEvent_total (valueOrEvent e : value) :
  exists v, getValueFromEvent valueOrEvent e
            = Ok {| nvalue := v; nevent := js_or e valueOrEvent |}.
Proof.
  unfold getValueFromEvent.
  destruct (defined e).
  - eauto.
  - destruct (target_value_total (js_or e valueOrEvent)) as [x Hx].
    rewrite Hx. eauto.
Qed.

(** With a truthy target, the [&&] chain ends in [event.target.value]. *)
Lemma target_value_of_event (ev t : value) :
  get ev "target" = Ok t -> truthy t = true ->
  target_value ev = get t "value".
Proof.
  intros Hget Ht. unfold target_value.
  assert (Hev : truthy ev = true).
  { destruct ev; simpl in *; try discriminate; try reflexivity;
      inversion Hget; subst; discriminate. }
  rewrite Hev, Hget, Ht. reflexivity.
Qed.

(** C1, as the claim states it, fails: a value passed alone is taken for
    the event, and the normalized value is read from its (missing) target;
    handleChange then writes undefined into the model. *)
Lemma getValueFromEvent_value_alone_is_not_kept :
  getValueFromEvent (VStr "abc") VUndefined
  = Ok {| nvalue := VUndefined; nevent := VStr "abc" |}
  /\ VUndefined <> VStr "abc"
  /\ run (FormField.handleChange
            (Example.props VUndefined None)
            (Example.context "" (Example.model VNull VUndefined))
            [VStr "abc"])
     = (Ok tt, [CallModel FormModel.setValue [VStr "email"; VUndefined]]).
Proof.
  split; [reflexivity | split; [discriminate | reflexivity]].
Qed.

(** C1 (amended): when a second argument that is neither undefined nor null
    comes with the first, normalisation does not throw and the normalized
    value is the first argument verbatim, whatever the two arguments are.
    When no second argument is supplied (it is undefined, or null), the first
    argument is taken to be the event: it is what comes back as the event, and
    the normalized value is what [event && event.target && event.target.value]
    gives for it. *)
Theorem getValueFromEvent_explicit_value (v e : value) :
  (defined e = true ->
   getValueFromEvent v e = Ok {| nvalue := v; nevent := js_or e v |})
  /\ (defined e = false ->
      exists x,
        target_value v = Ok x
        /\ getValueFromEvent v e = Ok {| nvalue := x; nevent := v |}).
Proof.
  split; intros He; unfold getValueFromEvent; rewrite He.
  - reflexivity.
  - assert (Hev : js_or e v = v)
      by (destruct e; try discriminate He; reflexivity).
    rewrite Hev.
    destruct (target_value_total v) as [x Hx].
    exists x. rewrite Hx. split; reflexivity.
Qed.

Lemma getValueFromEvent_explicit_value_witness :
  let ev := VObj [("target", VObj [("value", VStr "typed")])] in
  (defined ev = true
   /\ getValueFromEvent (VNum 42) ev = Ok {| nvalue := VNum 42; nevent := ev |})
  /\ (defined VUndefined = false
      /\ exists x,
          target_value ev = Ok x
          /\ getValueFromEvent ev VUndefined = Ok {| nvalue := x; nevent := ev |}).
Proof.
  cbv zeta. split; (split; [reflexivity |]).
  - apply (proj1 (getValueFromEvent_explicit_value (VNum 42)
                    (VObj [("target", VObj [("value", VStr "typed")])]))).
    reflexivity.
  - apply (proj2 (getValueFromEvent_explicit_value
                    (VObj [("target", VObj [("value", VStr "typed")])])
                    VUndefined)).
    reflexivity.
Defined.

(** C8: a handler called with an event alone, the event carrying a target
    (an element, hence truthy), normalizes without throwing to the value
    [event.target.value], and keeps the event. *)
Theorem getValueFromEvent_event_only (ev t : value) :
  get ev "target" = Ok t ->
  truthy t = true ->
  exists x,
    get t "value" = Ok x
    /\ getValueFromEvent ev VUndefined = Ok {| nvalue := x; nevent := ev |}
    /\ getValueFromEvent_spread [ev] = Ok {| nvalue := x; nevent := ev |}.
Proof.
  intros Hget Ht.
  destruct (truthy_get t "value" Ht) as [x Hx].
  exists x. split; [exact Hx |].
  assert (H : getValueFromEvent ev VUndefined = Ok {| nvalue := x; nevent := ev |}).
  { unfold getValueFromEvent, js_or, defined.
    cbn [is_undefined is_null negb andb truthy].
    rewrite (target_value_of_event ev t Hget Ht), Hx. reflexivity. }
  split; [exact H | exact H].
Qed.

Lemma getValueFromEvent_event_only_witness :
  let t := VObj [("value", VStr "typed")] in
  let ev := VObj [("target", t); ("key", VStr "a")] in
  get ev "target" = Ok t
  /\ truthy t = true
  /\ getValueFromEvent ev VUndefined = Ok {| nvalue := VStr "typed"; nevent := ev |}.
Proof.
  cbv zeta.
  split; [reflexivity | split; [reflexivity |]].
  destruct (getValueFromEvent_event_only
              (VObj [("target", VObj [("value", VStr "typed")]); ("key", VStr "a")])
              (VObj [("value", VStr "typed")]) eq_refl eq_refl)
    as [x [Hx [H _]]].
  simpl in Hx. inversion Hx; subst x. exact H.
Defined.

(* ------------------------------------------------------------------ *)
(** ** The event handlers *)

Lemma getValueFromEvent_spread_total (args : list value) :
  exists nv, getValueFromEvent_spread args = Ok nv.
Proof.
  unfold getValueFromEvent_spread.
  destruct (getValueFromEvent_total (arg 0 args) (arg 1 args)) as [v Hv].
  eauto.
Qed.

Lemma call_prop_trace (f : option nat) (nv : normalized) (tr : trace) :
  FormField.call_prop f nv tr = (Ok tt, tr ++ prop_calls f nv).
Proof.
  destruct f; simpl.
  - reflexivity.
  - unfold ret. rewrite app_nil_r. reflexivity.
Qed.

(** C2: handleChange normalizes its arguments, calls [onChange(value, event)]
    first when that prop is given, and then, on every invocation, calls
    [model.setValue(name, value)] with the normalized value; it never throws. *)
Theorem handleChange_writes_model
        (p : FormField.Props) (ctx : FormField.Context) (args : list value) :
  exists nv,
    getValueFromEvent_spread args = Ok nv
    /\ run (FormField.handleChange p ctx args)
       = (Ok tt,
          prop_calls (FormField.onChange p) nv
          ++ [CallModel FormModel.setValue [VStr (FormField.name p); nvalue nv]]).
Proof.
  destruct (getValueFromEvent_spread_total args) as [nv Hnv].
  exists nv. split; [exact Hnv |].
  unfold run, FormField.handleChange, bind, lift.
  rewrite Hnv, call_prop_trace. reflexivity.
Qed.

Lemma handleBlur_trace
      (p : FormField.Props) (ctx : FormField.Context) (args : list value) :
  exists nv,
    getValueFromEvent_spread args = Ok nv
    /\ run (FormField.handleBlur p ctx args)
       = (Ok tt,
          prop_calls (FormField.onBlur p) nv
          ++ [CallModel FormModel.handleBlurField
                [VStr (FormField.name p); nvalue nv]]).
Proof.
  destruct (getValueFromEvent_spread_total args) as [nv Hnv].
  exists nv. split; [exact Hnv |].
  unfold run, FormField.handleBlur, bind, lift.
  rewrite Hnv, call_prop_trace. reflexivity.
Qed.

(** C5, as the claim states it, fails: called without an event, with nothing
    or [null] as the value, handleKeyDown throws on reading [event.key], and
    the [onKeyDown] prop, though given, is not called. *)
Lemma handleKeyDown_without_event_throws :
  let p := Example.props VUndefined (Some 7%nat) in
  let ctx := Example.context "" (Example.model VNull VUndefined) in
  FormField.onKeyDown p = Some 7%nat
  /\ run (FormField.handleKeyDown p ctx []) = (Throw (TypeError "key" VUndefined), [])
  /\ run (FormField.handleKeyDown p ctx [VNull]) = (Throw (TypeError "key" VNull), []).
Proof.
  repeat split.
Qed.

(** C5 (amended): whenever the normalized event is neither undefined nor
    null, so that its [key] can be read, handleKeyDown calls
    [model.handleBlurField(name, value)] with the normalized value if and
    only if the key is the string 'Enter', and then, Enter or not, calls
    [onKeyDown(value, event)] when that prop is given. *)
Theorem handleKeyDown_enter_then_prop
        (p : FormField.Props) (ctx : FormField.Context) (args : list value)
        (nv : normalized) (key : value) :
  getValueFromEvent_spread args = Ok nv ->
  get (nevent nv) "key" = Ok key ->
  run (FormField.handleKeyDown p ctx args)
  = (Ok tt,
     enter_calls (FormField.name p) key nv
     ++ prop_calls (FormField.onKeyDown p) nv).
Proof.
  intros Hnv Hkey.
  unfold run, FormField.handleKeyDown, bind, lift, enter_calls.
  rewrite Hnv, Hkey.
  destruct (strict_eq_str key "Enter"); simpl;
    rewrite call_prop_trace; reflexivity.
Qed.

Lemma handleKeyDown_enter_then_prop_witness :
  let p := Example.props VUndefined (Some 7%nat) in
  let ctx := Example.context "" (Example.model VNull VUndefined) in
  let nv := {| nvalue := VStr "typed"; nevent := Example.enterEvent |} in
  getValueFromEvent_spread [Example.enterEvent] = Ok nv
  /\ get (nevent nv) "key" = Ok (VStr "Enter")
  /\ run (FormField.handleKeyDown p ctx [Example.enterEvent])
     = (Ok tt,
        [CallModel FormModel.handleBlurField [VStr "email"; VStr "typed"];
         CallProp 7 [VStr "typed"; Example.enterEvent]]).
Proof.
  cbv zeta.
  split; [reflexivity | split; [reflexivity |]].
  apply (handleKeyDown_enter_then_prop
           (Example.props VUndefined (Some 7%nat))
           (Example.context "" (Example.model VNull VUndefined))
           [Example.enterEvent]
           {| nvalue := VStr "typed"; nevent := Example.enterEvent |}
           (VStr "Enter")); reflexivity.
Defined.

(* ------------------------------------------------------------------ *)
(** ** What FormField renders *)

Lemma occurs_elem (tg tg' : Tag.t) (ps : props_t) (ch : list node) :
  occurs tg (NElem tg' ps ch)
  = Tag.eqb tg tg' || existsb (prop_occurs tg) ps || existsb (occurs tg) ch.
Proof. reflexivity. Qed.

Lemma occurs_val (tg : Tag.t) (v : value) : occurs tg (NVal v) = false.
Proof. reflexivity. Qed.

(** The caller's props are values: no element of this file is among them. *)
Lemma rest_has_no_element (tg : Tag.t) (p : FormField.Props) :
  existsb (prop_occurs tg) (FormField.rest p) = false.
Proof.
  unfold FormField.rest.
  rewrite !existsb_app.
  destruct (FormField.onChange p), (FormField.onBlur p), (FormField.onKeyDown p);
    simpl; induction (FormField.others p) as [| kv l IH]; simpl; auto.
Qed.

(** The [<Field>] part of the output holds nothing of the save bar. *)
Lemma renderField_has_no_bar
      (tg : Tag.t) (p : FormField.Props) (ctx : FormField.Context)
      (fa : FormField.FieldArgs) :
  bar_tag tg = true ->
  occurs tg (FormField.renderField p ctx fa) = false.
Proof.
  intros Htg.
  unfold FormField.renderField, FormField.renderControl,
    FormField.renderErrorState, FormField.controlProps, spread, node_and.
  destruct (negb (truthy (js_and (FormField.getError p ctx)
                            (VBool (negb (truthy (FormField.hideErrorMessage p)))))));
    destruct (truthy (FormModel.getFieldState (FormField.getModel ctx)
                        (FormField.name p) (VStr "showReturnButton")));
    repeat first [ rewrite occurs_elem | rewrite occurs_val
                 | progress cbn [existsb prop_occurs app] ];
    rewrite !existsb_app, rest_has_no_element;
    destruct tg; try discriminate Htg; reflexivity.
Qed.

Lemma with_jsx_child_has_no_element (tg : Tag.t) (ps : props_t) :
  existsb (prop_occurs tg) ps = false ->
  existsb (prop_occurs tg) (with_jsx_child ps) = false.
Proof.
  unfold with_jsx_child.
  induction ps as [| kp ps IH]; [reflexivity |].
  cbn [existsb filter]. intros H.
  apply orb_false_elim in H. destruct H as [Hkp Hps].
  destruct (negb (fst kp =? "children")%string).
  - cbn [existsb]. rewrite Hkp. apply IH, Hps.
  - apply IH, Hps.
Qed.

Lemma render_shape
      (p : FormField.Props) (ctx : FormField.Context) (fa : FormField.FieldArgs) :
  exists fieldProps,
    FormField.render p ctx fa
    = NElem Tag.Fragment []
        [NElem Tag.Field fieldProps [FormField.renderField p ctx fa];
         if FormField.saveOnBlurFieldOverride p
         then NElem Tag.Observer [] [FormField.renderSaveBar p ctx]
         else NVal (VBool false)]
    /\ forall tg, existsb (prop_occurs tg) fieldProps = false.
Proof.
  eexists. split; [reflexivity |].
  assert (H : forall tg,
             existsb (prop_occurs tg)
               (with_jsx_child
                  (spread [("id", PVal (VStr (FormField.getId p)));
                           ("name", PVal (VStr (FormField.name p)));
                           ("className", PVal (FormField.className p))]
                          (FormField.rest p))) = false).
  { intros tg. apply with_jsx_child_has_no_element.
    unfold spread. rewrite existsb_app, rest_has_no_element.
    reflexivity. }
  exact H.
Qed.

(** C3: with [saveOnBlur] unset or true, (a) every call of handleBlur
    normalizes its arguments, calls [onBlur(value, event)] first when that
    prop is given, and then calls [model.handleBlurField(name, value)] with
    the normalized value; and (b) whatever the model answers, the output of
    [render] has [false] in the place of the inline save bar, and no
    PanelAlert, Cancel button or Save button occurs anywhere in it. *)
Theorem saveOnBlur_blur_notifies_and_no_bar (p : FormField.Props) :
  FormField.saveOnBlur p = VUndefined \/ FormField.saveOnBlur p = VBool true ->
  (forall ctx args,
      exists nv,
        getValueFromEvent_spread args = Ok nv
        /\ run (FormField.handleBlur p ctx args)
           = (Ok tt,
              prop_calls (FormField.onBlur p) nv
              ++ [CallModel FormModel.handleBlurField
                    [VStr (FormField.name p); nvalue nv]]))
  /\ (forall ctx fa,
         child_at [1%nat] (FormField.render p ctx fa) = Some (NVal (VBool false))
         /\ forall tg, bar_tag tg = true ->
                       occurs tg (FormField.render p ctx fa) = false).
Proof.
  intros Hsave. split.
  - intros ctx args. apply handleBlur_trace.
  - intros ctx fa.
    assert (Hov : FormField.saveOnBlurFieldOverride p = false).
    { unfold FormField.saveOnBlurFieldOverride.
      destruct Hsave as [H | H]; rewrite H; reflexivity. }
    destruct (render_shape p ctx fa) as [fps [Hr Hfps]].
    rewrite Hr, Hov. split; [reflexivity |].
    intros tg Htg.
    rewrite !occurs_elem. cbn [existsb].
    rewrite occurs_elem. cbn [existsb].
    rewrite Hfps, (renderField_has_no_bar tg p ctx fa Htg).
    destruct tg; try discriminate Htg; reflexivity.
Qed.

Lemma saveOnBlur_blur_notifies_and_no_bar_witness :
  let p := Example.props (VBool true) None in
  let ctx := Example.context "" (Example.model (VStr "a@b.c") (VBool true)) in
  (FormField.saveOnBlur p = VUndefined \/ FormField.saveOnBlur p = VBool true)
  /\ occurs Tag.PanelAlert (FormField.render p ctx Example.fieldArgs) = false.
Proof.
  cbv zeta.
  split; [right; reflexivity |].
  apply (saveOnBlur_blur_notifies_and_no_bar
           (Example.props (VBool true) None) (or_intror eq_refl)).
  reflexivity.
Defined.

(** C4: with [saveOnBlur] false and the model answering a true 'showSave'
    state, the second child of the output is the observer of the alert bar,
    whose actions are exactly two buttons, Cancel then Save; a click on Save,
    whatever its arguments, calls [model.handleSaveField(name,
    model.getValue(name))] with the value the model holds at the time of the
    click; a click on Cancel calls [model.handleCancelSaveField(name)] with
    the name alone. *)
Theorem manual_save_bar
        (p : FormField.Props) (ctx : FormField.Context) (fa : FormField.FieldArgs) :
  FormField.saveOnBlur p = VBool false ->
  truthy (FormModel.getFieldState (FormField.form ctx) (FormField.name p)
            (VStr "showSave")) = true ->
  child_at [1%nat] (FormField.render p ctx fa)
  = Some (NElem Tag.Observer []
            [NElem Tag.PanelAlert [("type", PVal (FormField.saveMessageAlertType p))]
               [NElem Tag.MessageAndActions []
                  [NElem Tag.div [] [NVal (FormField.saveMessage p)];
                   NElem Tag.Actions [] [cancelButton; saveButton]]]])
  /\ (forall ctx' args,
         option_map run (FormField.click saveButton p ctx' args)
         = Some (Ok tt,
                 [CallModel FormModel.handleSaveField
                    [VStr (FormField.name p);
                     FormModel.getValue (FormField.form ctx') (FormField.name p)]]))
  /\ (forall ctx' args,
         option_map run (FormField.click cancelButton p ctx' args)
         = Some (Ok tt,
                 [CallModel FormModel.handleCancelSaveField
                    [VStr (FormField.name p)]])).
Proof.
  intros Hsave Hshow. split; [| split; intros ctx' args; reflexivity].
  unfold FormField.render, FormField.saveOnBlurFieldOverride,
    FormField.renderSaveBar, FormField.getModel.
  rewrite Hsave, Hshow. reflexivity.
Qed.

Lemma manual_save_bar_witness :
  let p := Example.props (VBool false) None in
  let ctx := Example.context "" (Example.model (VStr "a@b.c") (VBool true)) in
  FormField.saveOnBlur p = VBool false
  /\ truthy (FormModel.getFieldState (FormField.form ctx) (FormField.name p)
               (VStr "showSave")) = true
  /\ option_map run (FormField.click saveButton p ctx [VObj [("type", VStr "click")]])
     = Some (Ok tt,
             [CallModel FormModel.handleSaveField [VStr "email"; VStr "a@b.c"]]).
Proof.
  cbv zeta.
  split; [reflexivity | split; [reflexivity |]].
  apply (manual_save_bar
           (Example.props (VBool false) None)
           (Example.context "" (Example.model (VStr "a@b.c") (VBool true)))
           Example.fieldArgs eq_refl eq_refl).
Defined.

(** The control is the first child of the fragment under the observer under
    FieldControl under Field. *)
Lemma render_control_element
      (p : FormField.Props) (ctx : FormField.Context) (fa : FormField.FieldArgs) :
  child_at [0; 0; 0; 0; 0]%nat (FormField.render p ctx fa)
  = Some (NElem Tag.children (FormField.controlProps p ctx fa) []).
Proof. reflexivity. Qed.

(** The [value] prop of the control is the one [render] writes, whatever the
    caller's props hold. *)
Lemma controlProps_value
      (p : FormField.Props) (ctx : FormField.Context) (fa : FormField.FieldArgs) :
  prop_of "value" (FormField.controlProps p ctx fa)
  = Some (PVal (let value := FormModel.getValue (FormField.form ctx) (FormField.name p) in
                if is_null value then VStr "" else value)).
Proof.
  unfold prop_of, FormField.controlProps, spread.
  rewrite !rev_app_distr. reflexivity.
Qed.

(** C9: when [model.getValue(name)] is null, the control, at its place in the
    output of [render], is given the empty string as its [value] prop, which
    is not null. *)
Theorem null_value_renders_empty_string
        (p : FormField.Props) (ctx : FormField.Context) (fa : FormField.FieldArgs) :
  FormModel.getValue (FormField.form ctx) (FormField.name p) = VNull ->
  exists ps,
    child_at [0; 0; 0; 0; 0]%nat (FormField.render p ctx fa)
    = Some (NElem Tag.children ps [])
    /\ prop_of "value" ps = Some (PVal (VStr ""))
    /\ prop_of "value" ps <> Some (PVal VNull).
Proof.
  intros Hnull.
  exists (FormField.controlProps p ctx fa).
  split; [apply render_control_element |].
  rewrite controlProps_value, Hnull.
  split; [reflexivity | discriminate].
Qed.

Lemma null_value_renders_empty_string_witness :
  let p := Example.props VUndefined None in
  let ctx := Example.context "" (Example.model VNull VUndefined) in
  FormModel.getValue (FormField.form ctx) (FormField.name p) = VNull
  /\ exists ps,
      child_at [0; 0; 0; 0; 0]%nat (FormField.render p ctx Example.fieldArgs)
      = Some (NElem Tag.children ps [])
      /\ prop_of "value" ps = Some (PVal (VStr ""))
      /\ prop_of "value" ps <> Some (PVal VNull).
Proof.
  cbv zeta.
  split; [reflexivity |].
  apply (null_value_renders_empty_string
           (Example.props VUndefined None)
           (Example.context "" (Example.model VNull VUndefined))
           Example.fieldArgs eq_refl).
Defined.

(** C10: only null is replaced: when [model.getValue(name)] is any other
    value [v] (undefined, false, 0 and the empty string among them), the
    control is given [v] itself as its [value] prop. *)
Theorem other_values_reach_control_unchanged
        (p : FormField.Props) (ctx : FormField.Context) (fa : FormField.FieldArgs)
        (v : value) :
  FormModel.getValue (FormField.form ctx) (FormField.name p) = v ->
  v <> VNull ->
  exists ps,
    child_at [0; 0; 0; 0; 0]%nat (FormField.render p ctx fa)
    = Some (NElem Tag.children ps [])
    /\ prop_of "value" ps = Some (PVal v).
Proof.
  intros Hv Hnn.
  exists (FormField.controlProps p ctx fa).
  split; [apply render_control_element |].
  rewrite controlProps_value, Hv.
  destruct v; try reflexivity. contradiction.
Qed.

Lemma other_values_reach_control_unchanged_witness :
  let p := Example.props VUndefined None in
  let ctx := Example.context "" (Example.model VUndefined VUndefined) in
  FormModel.getValue (FormField.form ctx) (FormField.name p) = VUndefined
  /\ VUndefined <> VNull
  /\ exists ps,
      child_at [0; 0; 0; 0; 0]%nat (FormField.render p ctx Example.fieldArgs)
      = Some (NElem Tag.children ps [])
      /\ prop_of "value" ps = Some (PVal VUndefined).
Proof.
  cbv zeta.
  split; [reflexivity | split; [discriminate |]].
  apply (other_values_reach_control_unchanged
           (Example.props VUndefined None)
           (Example.context "" (Example.model VUndefined VUndefined))
           Example.fieldArgs VUndefined eq_refl).
  discriminate.
Defined.

(* ------------------------------------------------------------------ *)
(** ** What ControlState renders *)

(** C6: for every model snapshot, the first observer of ControlState holds
    the spinner when the SAVING state is truthy, else the checkmark when the
    READY state is truthy, else null, so the spinner and the checkmark never
    occur together in the output; the second observer holds the error icon
    exactly when [getError(name)] is truthy, whatever the first holds, and
    there are snapshots in which the spinner and the error icon both occur. *)
Theorem ControlState_indicators (SAVING READY : value) :
  (forall p : ControlState.Props,
      let out := ControlState.render SAVING READY p in
      let isSaving :=
        truthy (FormModel.getFieldState (ControlState.model p) (ControlState.name p) SAVING) in
      let isSaved :=
        truthy (FormModel.getFieldState (ControlState.model p) (ControlState.name p) READY) in
      let hasError :=
        truthy (FormModel.getError (ControlState.model p) (ControlState.name p)) in
      child_at [0; 0]%nat out
      = Some (if isSaving then ControlState.savingIndicator
              else if isSaved then ControlState.savedIndicator
                   else NVal VNull)
      /\ child_at [1; 0]%nat out
         = Some (if hasError then ControlState.errorIndicator else NVal VNull)
      /\ occurs Tag.FormSpinner out = isSaving
      /\ occurs Tag.FormFieldIsSaved out = negb isSaving && isSaved
      /\ occurs Tag.FormSpinner out && occurs Tag.FormFieldIsSaved out = false
      /\ occurs Tag.FormFieldError out = hasError)
  /\ (exists p : ControlState.Props,
         occurs Tag.FormSpinner (ControlState.render SAVING READY p) = true
         /\ occurs Tag.FormFieldError (ControlState.render SAVING READY p) = true).
Proof.
  split.
  - intros p out isSaving isSaved hasError.
    subst out isSaving isSaved hasError.
    unfold ControlState.render, ControlState.renderSaving, ControlState.renderError.
    destruct (truthy (FormModel.getFieldState (ControlState.model p)
                        (ControlState.name p) SAVING));
      destruct (truthy (FormModel.getFieldState (ControlState.model p)
                          (ControlState.name p) READY));
      destruct (truthy (FormModel.getError (ControlState.model p)
                          (ControlState.name p)));
      repeat split.
  - exists {| ControlState.model :=
                {| FormModel.getValue := fun _ => VNull;
                   FormModel.getError := fun _ => VStr "Invalid";
                   FormModel.getFieldState := fun _ _ => VBool true;
                   FormModel.initialData := VUndefined |};
              ControlState.name := "email" |}.
    split; reflexivity.
Qed.

(* ------------------------------------------------------------------ *)
(** ** Autofocus on mount *)

Lemma fragment_names_field_iff (p : FormField.Props) (ctx : FormField.Context) :
  fragment_names_field p ctx = true
  <-> get (FormField.location ctx) "hash" = Ok (VStr ("#" ++ FormField.name p)).
Proof.
  unfold fragment_names_field.
  destruct (get (FormField.location ctx) "hash") as [h | e].
  - destruct h; simpl; split; intros H; try discriminate;
      try (inversion H; fail).
    + apply String.eqb_eq in H. now subst.
    + inversion H. apply String.eqb_refl.
  - split; discriminate.
Qed.

(** One ref callback: what it leaves in [this.input] and what it calls. *)
Lemma handleInputMount_step
      (p : FormField.Props) (ctx : FormField.Context)
      (input : FormField.input_t) (r : ref) (tr : trace) :
  FormField.handleInputMount p ctx input r tr
  = match r with
    | RefElement el =>
        if FormField.input_truthy input then (Ok (Some r), tr)
        else if fragment_names_field p ctx
             then (Ok (Some r), tr ++ [CallFocus el])
             else (Ok input, tr)
    | RefNull => (Ok (Some r), tr)
    end.
Proof.
  unfold FormField.handleInputMount, fragment_names_field.
  destruct r as [| el]; [reflexivity |].
  destruct (FormField.input_truthy input); [reflexivity |].
  cbn [negb]. unfold bind, lift.
  destruct (FormField.location ctx) as [| | b | z | s | f | fields];
    try reflexivity.
  - destruct b; reflexivity.
  - cbn [get]. destruct (truthy (VNum z)) eqn:Hz; cbn [negb];
      rewrite ?Hz; reflexivity.
  - cbn [get]. destruct (truthy (VStr s)) eqn:Hs; cbn [negb];
      rewrite ?Hs; reflexivity.
  - cbn [truthy get].
    destruct (match assoc "hash" fields with Some x => x | None => VUndefined end)
      as [| | b | z | s | f | fs]; try reflexivity.
    + destruct b; reflexivity.
    + cbn [strict_eq_str negb]. destruct (truthy (VNum z)); reflexivity.
    + cbn [strict_eq_str].
      destruct (s =? "#" ++ FormField.name p)%string eqn:Hs.
      * apply String.eqb_eq in Hs. subst s. reflexivity.
      * destruct (truthy (VStr s)); reflexivity.
Qed.

Lemma mounts_cons
      (p : FormField.Props) (input : FormField.input_t)
      (ctx : FormField.Context) (r : ref) (rs : list (FormField.Context * ref))
      (tr : trace) :
  FormField.mounts p input ((ctx, r) :: rs) tr
  = match FormField.handleInputMount p ctx input r tr with
    | (Ok input', tr') => FormField.mounts p input' rs tr'
    | (Throw e, tr') => (Throw e, tr')
    end.
Proof. reflexivity. Qed.

(** Once an element is stored, further mounts of elements call nothing. *)
Lemma mounts_after_stored (p : FormField.Props) (rs : list (FormField.Context * ref)) :
  all_elements rs ->
  forall input tr,
    FormField.input_truthy input = true ->
    exists input',
      FormField.mounts p input rs tr = (Ok input', tr)
      /\ FormField.input_truthy input' = true.
Proof.
  induction 1 as [| [ctx r] rs Hr _ IH]; intros input tr Hin.
  - exists input. split; [reflexivity | exact Hin].
  - rewrite mounts_cons, handleInputMount_step.
    destruct r as [| el]; [discriminate Hr |].
    rewrite Hin. apply IH. reflexivity.
Qed.

Lemma mounts_at_most_one_focus (p : FormField.Props) (rs : list (FormField.Context * ref)) :
  all_elements rs ->
  forall input tr,
    exists input' calls,
      FormField.mounts p input rs tr = (Ok input', tr ++ calls)
      /\ (calls = [] \/ exists el, calls = [CallFocus el]).
Proof.
  induction 1 as [| [ctx r] rs Hr Hrs IH]; intros input tr.
  - exists input, []. rewrite app_nil_r. split; [reflexivity | now left].
  - rewrite mounts_cons, handleInputMount_step.
    destruct r as [| el]; [discriminate Hr |].
    destruct (FormField.input_truthy input) eqn:Hin.
    + destruct (mounts_after_stored p rs Hrs (Some (RefElement el)) tr eq_refl)
        as [input' [Hm _]].
      exists input', []. rewrite app_nil_r. split; [exact Hm | now left].
    + destruct (fragment_names_field p ctx).
      * destruct (mounts_after_stored p rs Hrs (Some (RefElement el))
                    (tr ++ [CallFocus el]) eq_refl) as [input' [Hm _]].
        exists input', [CallFocus el]. split; [exact Hm | right; eauto].
      * apply IH.
Qed.

Lemma mounts_never_named (p : FormField.Props) (rs : list (FormField.Context * ref)) :
  never_named p rs ->
  forall input tr, exists input', FormField.mounts p input rs tr = (Ok input', tr).
Proof.
  induction 1 as [| [ctx r] rs Hr _ IH]; intros input tr.
  - exists input. reflexivity.
  - rewrite mounts_cons, handleInputMount_step.
    simpl in Hr. rewrite Hr.
    destruct r as [| el]; [apply IH |].
    destruct (FormField.input_truthy input); apply IH.
Qed.

(** C7, as the claim states it, fails: a null callback (the element
    unmounts) clears the stored reference, and the next mount under the
    same fragment focuses a second time. *)
Lemma remount_focuses_again :
  let p := Example.props VUndefined None in
  let ctx := Example.context "#email" (Example.model VNull VUndefined) in
  run (FormField.mounts p None
         [(ctx, RefElement 1); (ctx, RefNull); (ctx, RefElement 1)])
  = (Ok (Some (RefElement 1)), [CallFocus 1; CallFocus 1])
  /\ focus_count [CallFocus 1; CallFocus 1] = 2%nat.
Proof.
  split; reflexivity.
Qed.

(** C7 (amended): across a sequence of ref callbacks that all carry an
    element (no unmount in between), focus is called at most once; on a fresh
    field it is called exactly once, on the first callback, when the
    fragment then is exactly [#<name>]; and across any sequence of callbacks
    during which the fragment is absent or names another field, focus is
    never called. *)
Theorem autofocus_on_mount (p : FormField.Props) (rs : list (FormField.Context * ref)) :
  (all_elements rs ->
   forall input, exists input' tr,
       run (FormField.mounts p input rs) = (Ok input', tr)
       /\ focus_count tr <= 1)
  /\ (forall ctx el rs',
         rs = (ctx, RefElement el) :: rs' ->
         all_elements rs' ->
         fragment_names_field p ctx = true ->
         exists input',
           run (FormField.mounts p None rs) = (Ok input', [CallFocus el]))
  /\ (never_named p rs ->
      forall input, exists input',
          run (FormField.mounts p input rs) = (Ok input', [])).
Proof.
  unfold run. split; [| split].
  - intros Hrs input.
    destruct (mounts_at_most_one_focus p rs Hrs input []) as [input' [calls [Hm Hc]]].
    exists input', calls. split; [exact Hm |].
    destruct Hc as [-> | [el ->]]; unfold focus_count; simpl; lia.
  - intros ctx el rs' -> Hrs' Hnamed.
    rewrite mounts_cons, handleInputMount_step. cbn [FormField.input_truthy].
    rewrite Hnamed.
    destruct (mounts_after_stored p rs' Hrs' (Some (RefElement el))
                ([] ++ [CallFocus el]) eq_refl) as [input' [Hm _]].
    exists input'. exact Hm.
  - intros Hrs input. apply (mounts_never_named p rs Hrs input []).
Qed.

Lemma autofocus_on_mount_witness :
  let p := Example.props VUndefined None in
  let email := Example.context "#email" (Example.model VNull VUndefined) in
  let rs := [(email, RefElement 1); (email, RefElement 1)] in
  all_elements rs
  /\ fragment_names_field p email = true
  /\ exists input', run (FormField.mounts p None rs) = (Ok input', [CallFocus 1]).
Proof.
  cbv zeta.
  split; [repeat constructor | split; [reflexivity |]].
  apply (proj1 (proj2 (autofocus_on_mount
                         (Example.props VUndefined None)
                         [(Example.context "#email" (Example.model VNull VUndefined),
                           RefElement 1);
                          (Example.context "#email" (Example.model VNull VUndefined),
                           RefElement 1)]))
           (Example.context "#email" (Example.model VNull VUndefined)) 1%nat
           [(Example.context "#email" (Example.model VNull VUndefined), RefElement 1)]
           eq_refl).
  - repeat constructor.
  - reflexivity.
Defined.

(** The specification's example: under the fragment [#email], a field named
    username is not focused. *)
Lemma other_field_not_focused :
  let p := {| FormField.name := "username";
              FormField.className := VUndefined;
              FormField.saveOnBlur := VUndefined;
              FormField.saveMessage := VUndefined;
              FormField.saveMessageAlertType := VUndefined;
              FormField.hideErrorMessage := VBool false;
              FormField.flexibleControlStateSize := VBool false;
              FormField.onChange := None;
              FormField.onBlur := None;
              FormField.onKeyDown := None;
              FormField.others := [] |} in
  let ctx := Example.context "#email" (Example.model VNull VUndefined) in
  run (FormField.mounts p None [(ctx, RefElement 1); (ctx, RefElement 1)])
  = (Ok None, []).
Proof. reflexivity. Qed.


(* ------------------------------------------------------------------ *)
(** ** Further properties of the normalisation *)

(** X1: getValueFromEvent never throws, whatever its two arguments are, and
    the event it returns is the second argument when that is truthy and the
    first argument otherwise. *)
Theorem getValueFromEvent_never_throws (valueOrEvent e : value) :
  exists v,
    getValueFromEvent valueOrEvent e
    = Ok {| nvalue := v; nevent := if truthy e then e else valueOrEvent |}.
Proof.
  unfold getValueFromEvent, js_or.
  destruct (defined e).
  - eauto.
  - destruct (target_value_total (if truthy e then e else valueOrEvent)) as [x Hx].
    rewrite Hx. eauto.
Qed.

Lemma not_defined_is_falsy (e : value) : defined e = false -> truthy e = false.
Proof. destruct e; simpl; intros H; try discriminate; reflexivity. Qed.

Lemma falsy_target_value (v : value) :
  truthy v = false -> target_value v = Ok v.
Proof. intros H. unfold target_value. rewrite H, H. reflexivity. Qed.

(** X2: a first argument that is not an object, passed without an event, is
    taken for the event: when it is falsy (0, '', false, null, undefined) it
    comes back as the value, by the short cut of [&&]; when it is truthy (a
    non-empty string, a number, true, a function) the value is undefined. *)
Theorem getValueFromEvent_primitive_alone (v e : value) :
  is_object v = false ->
  defined e = false ->
  getValueFromEvent v e
  = Ok {| nvalue := if truthy v then VUndefined else v; nevent := v |}.
Proof.
  intros Hobj He.
  unfold getValueFromEvent, js_or.
  rewrite He, (not_defined_is_falsy e He).
  destruct v; try discriminate Hobj; try reflexivity.
  - destruct b; reflexivity.
  - unfold target_value. destruct (truthy (VNum z)) eqn:Hz.
    + reflexivity.
    + rewrite Hz. reflexivity.
  - unfold target_value. destruct (truthy (VStr s)) eqn:Hs.
    + reflexivity.
    + rewrite Hs. reflexivity.
Qed.

Lemma getValueFromEvent_primitive_alone_witness :
  is_object (VNum 0) = false
  /\ defined VUndefined = false
  /\ getValueFromEvent (VNum 0) VUndefined
     = Ok {| nvalue := VNum 0; nevent := VNum 0 |}.
Proof.
  split; [reflexivity | split; [reflexivity |]].
  apply (getValueFromEvent_primitive_alone (VNum 0) VUndefined); reflexivity.
Defined.

(** X3: an event passed alone whose target is missing or falsy does not
    throw: the normalized value is that target itself, undefined when the
    event has no target. *)
Theorem getValueFromEvent_event_without_target (ev t e : value) :
  truthy ev = true ->
  get ev "target" = Ok t ->
  truthy t = false ->
  defined e = false ->
  getValueFromEvent ev e = Ok {| nvalue := t; nevent := ev |}.
Proof.
  intros Hev Hget Ht He.
  unfold getValueFromEvent, js_or, target_value.
  rewrite He, (not_defined_is_falsy e He), Hev, Hget, Ht. reflexivity.
Qed.

Lemma getValueFromEvent_event_without_target_witness :
  let ev := VObj [("key", VStr "Enter")] in
  truthy ev = true
  /\ get ev "target" = Ok VUndefined
  /\ truthy VUndefined = false
  /\ defined VUndefined = false
  /\ getValueFromEvent ev VUndefined = Ok {| nvalue := VUndefined; nevent := ev |}.
Proof.
  cbv zeta.
  repeat (split; [reflexivity |]).
  apply (getValueFromEvent_event_without_target
           (VObj [("key", VStr "Enter")]) VUndefined VUndefined); reflexivity.
Defined.

Lemma js_or_same (v : value) : js_or v v = v.
Proof. unfold js_or. destruct (truthy v); reflexivity. Qed.

(** A value given twice stands for both. *)
Lemma getValueFromEvent_same (v : value) :
  getValueFromEvent v v = Ok {| nvalue := v; nevent := v |}.
Proof.
  unfold getValueFromEvent. rewrite js_or_same.
  destruct (defined v) eqn:Hv; [reflexivity |].
  rewrite (falsy_target_value v (not_defined_is_falsy v Hv)). reflexivity.
Qed.

(** X4: normalisation is idempotent: the pair (value, event) a handler hands
    to the caller's callback normalizes to itself again, so the callback can
    pass both on to another handler. *)
Theorem getValueFromEvent_idempotent (valueOrEvent e : value) (nv : normalized) :
  getValueFromEvent valueOrEvent e = Ok nv ->
  getValueFromEvent (nvalue nv) (nevent nv) = Ok nv.
Proof.
  intros H.
  unfold getValueFromEvent in H.
  destruct (defined e) eqn:He.
  - inversion H; subst nv; clear H. cbn [nvalue nevent].
    unfold js_or. destruct (truthy e) eqn:Hte.
    + unfold getValueFromEvent, js_or. rewrite He, Hte. reflexivity.
    + apply getValueFromEvent_same.
  - unfold js_or in H. rewrite (not_defined_is_falsy e He) in H.
    destruct (target_value valueOrEvent) as [x | err] eqn:Htv; [| discriminate H].
    inversion H; subst nv; clear H. cbn [nvalue nevent].
    destruct (truthy valueOrEvent) eqn:Htr.
    + assert (Hd : defined valueOrEvent = true)
        by (destruct valueOrEvent; try discriminate Htr; reflexivity).
      unfold getValueFromEvent, js_or. rewrite Hd, Htr. reflexivity.
    + rewrite (falsy_target_value _ Htr) in Htv. inversion Htv; subst x.
      apply getValueFromEvent_same.
Qed.

Lemma getValueFromEvent_idempotent_witness :
  let t := VObj [("value", VStr "typed")] in
  let ev := VObj [("target", t)] in
  let nv := {| nvalue := VStr "typed"; nevent := ev |} in
  getValueFromEvent ev VUndefined = Ok nv
  /\ getValueFromEvent (nvalue nv) (nevent nv) = Ok nv.
Proof.
  cbv zeta.
  split; [reflexivity |].
  apply (getValueFromEvent_idempotent
           (VObj [("target", VObj [("value", VStr "typed")])]) VUndefined).
  reflexivity.
Defined.

(* ------------------------------------------------------------------ *)
(** ** Further properties of the handlers *)

Lemma defined_get (v : value) (k : string) :
  defined v = true -> exists x, get v k = Ok x.
Proof. destruct v; simpl; intros H; try discriminate; eauto. Qed.

Lemma not_defined_get (v : value) (k : string) :
  defined v = false -> get v k = Throw (TypeError k v).
Proof. destruct v; simpl; intros H; try discriminate; reflexivity. Qed.

Lemma handleKeyDown_run
      (p : FormField.Props) (ctx : FormField.Context) (args : list value)
      (nv : normalized) :
  getValueFromEvent_spread args = Ok nv ->
  run (FormField.handleKeyDown p ctx args)
  = match get (nevent nv) "key" with
    | Ok key =>
        (Ok tt,
         enter_calls (FormField.name p) key nv
         ++ prop_calls (FormField.onKeyDown p) nv)
    | Throw e => (Throw e, [])
    end.
Proof.
  intros Hnv.
  unfold run, FormField.handleKeyDown, bind, lift, enter_calls.
  rewrite Hnv.
  destruct (get (nevent nv) "key") as [key | e]; [| reflexivity].
  destruct (strict_eq_str key "Enter"); simpl;
    rewrite call_prop_trace; reflexivity.
Qed.

(** X5: handleKeyDown throws exactly when it is called without a truthy
    second argument and with undefined or null as the first: the TypeError
    comes from reading [key] of that first argument, and nothing has been
    called by then.  In every other case it completes. *)
Theorem handleKeyDown_throws_iff_no_event
        (p : FormField.Props) (ctx : FormField.Context) (args : list value) :
  run (FormField.handleKeyDown p ctx args)
  = if truthy (arg 1 args) || defined (arg 0 args)
    then (Ok tt, snd (run (FormField.handleKeyDown p ctx args)))
    else (Throw (TypeError "key" (arg 0 args)), []).
Proof.
  destruct (getValueFromEvent_total (arg 0 args) (arg 1 args)) as [v Hv].
  rewrite (handleKeyDown_run p ctx args _ Hv).
  cbn [nevent]. unfold js_or.
  destruct (truthy (arg 1 args)) eqn:H1.
  - destruct (truthy_get (arg 1 args) "key" H1) as [key Hkey].
    rewrite Hkey. reflexivity.
  - cbn [orb]. destruct (defined (arg 0 args)) eqn:H0.
    + destruct (defined_get (arg 0 args) "key" H0) as [key Hkey].
      rewrite Hkey. reflexivity.
    + rewrite (not_defined_get (arg 0 args) "key" H0). reflexivity.
Qed.

Lemma model_calls_app (a b : trace) :
  model_calls (a ++ b) = model_calls a ++ model_calls b.
Proof. apply filter_app. Qed.

Lemma model_calls_prop_calls (f : option nat) (nv : normalized) :
  model_calls (prop_calls f nv) = [].
Proof. destruct f; reflexivity. Qed.

(** X6: Enter is a blur: whenever the key of the normalized event can be
    read, the notifications handleKeyDown sends to the model are those
    handleBlur sends for the same arguments when the key is 'Enter', and none
    otherwise. *)
Theorem handleKeyDown_enter_is_blur
        (p : FormField.Props) (ctx : FormField.Context) (args : list value)
        (nv : normalized) (key : value) :
  getValueFromEvent_spread args = Ok nv ->
  get (nevent nv) "key" = Ok key ->
  model_calls (snd (run (FormField.handleKeyDown p ctx args)))
  = if strict_eq_str key "Enter"
    then model_calls (snd (run (FormField.handleBlur p ctx args)))
    else [].
Proof.
  intros Hnv Hkey.
  rewrite (handleKeyDown_run p ctx args nv Hnv), Hkey. cbn [snd].
  destruct (handleBlur_trace p ctx args) as [nv' [Hnv' Hblur]].
  rewrite Hnv in Hnv'. inversion Hnv'; subst nv'.
  rewrite Hblur. cbn [snd].
  rewrite !model_calls_app, !model_calls_prop_calls.
  unfold enter_calls. destruct (strict_eq_str key "Enter"); reflexivity.
Qed.

Lemma handleKeyDown_enter_is_blur_witness :
  let p := Example.props VUndefined (Some 7%nat) in
  let ctx := Example.context "" (Example.model VNull VUndefined) in
  let nv := {| nvalue := VStr "typed"; nevent := Example.enterEvent |} in
  getValueFromEvent_spread [Example.enterEvent] = Ok nv
  /\ get (nevent nv) "key" = Ok (VStr "Enter")
  /\ model_calls (snd (run (FormField.handleKeyDown p ctx [Example.enterEvent])))
     = model_calls (snd (run (FormField.handleBlur p ctx [Example.enterEvent]))).
Proof.
  cbv zeta.
  split; [reflexivity | split; [reflexivity |]].
  apply (handleKeyDown_enter_is_blur
           (Example.props VUndefined (Some 7%nat))
           (Example.context "" (Example.model VNull VUndefined))
           [Example.enterEvent]
           {| nvalue := VStr "typed"; nevent := Example.enterEvent |}
           (VStr "Enter")); reflexivity.
Defined.

(** X7: a change event passed alone, as a plain input does, writes the value
    of its target into the model, after the caller's [onChange] has been
    given that value and the event. *)
Theorem handleChange_writes_target_value
        (p : FormField.Props) (ctx : FormField.Context) (ev t x : value) :
  get ev "target" = Ok t ->
  truthy t = true ->
  get t "value" = Ok x ->
  run (FormField.handleChange p ctx [ev])
  = (Ok tt,
     prop_calls (FormField.onChange p) {| nvalue := x; nevent := ev |}
     ++ [CallModel FormModel.setValue [VStr (FormField.name p); x]]).
Proof.
  intros Hget Ht Hx.
  assert (Hnv : getValueFromEvent_spread [ev]
                = Ok {| nvalue := x; nevent := ev |}).
  { unfold getValueFromEvent_spread, getValueFromEvent, js_or, defined.
    cbn [arg nth is_undefined is_null negb andb truthy].
    rewrite (target_value_of_event ev t Hget Ht), Hx. reflexivity. }
  unfold run, FormField.handleChange, bind, lift.
  rewrite Hnv, call_prop_trace. reflexivity.
Qed.

Lemma handleChange_writes_target_value_witness :
  let t := VObj [("value", VStr "typed")] in
  let ev := VObj [("target", t)] in
  get ev "target" = Ok t
  /\ truthy t = true
  /\ get t "value" = Ok (VStr "typed")
  /\ run (FormField.handleChange
            (Example.props VUndefined None)
            (Example.context "" (Example.model VNull VUndefined)) [ev])
     = (Ok tt, [CallModel FormModel.setValue [VStr "email"; VStr "typed"]]).
Proof.
  cbv zeta.
  repeat (split; [reflexivity |]).
  apply (handleChange_writes_target_value
           (Example.props VUndefined None)
           (Example.context "" (Example.model VNull VUndefined))
           (VObj [("target", VObj [("value", VStr "typed")])])
           (VObj [("value", VStr "typed")]) (VStr "typed")); reflexivity.
Defined.

(* ------------------------------------------------------------------ *)
(** ** Further properties of what FormField renders *)

Ltac occurs_step :=
  first [ rewrite occurs_elem | rewrite occurs_val
        | progress cbn [existsb prop_occurs app] ].

Lemma fieldProps_have_no_element (tg : Tag.t) (p : FormField.Props) :
  existsb (prop_occurs tg)
    (with_jsx_child
       (spread [("id", PVal (VStr (FormField.getId p)));
                ("name", PVal (VStr (FormField.name p)));
                ("className", PVal (FormField.className p))]
               (FormField.rest p))) = false.
Proof.
  apply with_jsx_child_has_no_element.
  unfold spread. rewrite existsb_app, rest_has_no_element. reflexivity.
Qed.

(** Where a tag can occur in the output: at the two outer elements, in the
    Field part, or in the save bar when that is rendered. *)
Lemma occurs_render
      (tg : Tag.t) (p : FormField.Props) (ctx : FormField.Context)
      (fa : FormField.FieldArgs) :
  occurs tg (FormField.render p ctx fa)
  = Tag.eqb tg Tag.Fragment
    || Tag.eqb tg Tag.Field
    || occurs tg (FormField.renderField p ctx fa)
    || (FormField.saveOnBlurFieldOverride p
        && (Tag.eqb tg Tag.Observer || occurs tg (FormField.renderSaveBar p ctx))).
Proof.
  unfold FormField.render.
  rewrite occurs_elem. cbn [existsb].
  rewrite occurs_elem. cbn [existsb].
  rewrite fieldProps_have_no_element.
  destruct (FormField.saveOnBlurFieldOverride p).
  - rewrite occurs_elem. cbn [existsb].
    destruct (Tag.eqb tg Tag.Fragment), (Tag.eqb tg Tag.Field),
      (occurs tg (FormField.renderField p ctx fa)), (Tag.eqb tg Tag.Observer),
      (occurs tg (FormField.renderSaveBar p ctx)); reflexivity.
  - rewrite occurs_val.
    destruct (Tag.eqb tg Tag.Fragment), (Tag.eqb tg Tag.Field),
      (occurs tg (FormField.renderField p ctx fa)); reflexivity.
Qed.

Lemma truthy_js_and (a b : value) :
  truthy (js_and a b) = truthy a && truthy b.
Proof.
  unfold js_and. destruct (truthy a) eqn:Ha; [reflexivity | exact Ha].
Qed.

Lemma renderErrorState_cases (p : FormField.Props) (ctx : FormField.Context) :
  FormField.renderErrorState p ctx
  = if showsErrorMessage p ctx
    then NElem Tag.FormFieldErrorReason [] [NVal (FormField.getError p ctx)]
    else NVal VNull.
Proof.
  unfold FormField.renderErrorState, showsErrorMessage.
  rewrite truthy_js_and. cbn [truthy].
  destruct (truthy (FormField.getError p ctx)
            && negb (truthy (FormField.hideErrorMessage p))); reflexivity.
Qed.

Lemma occurs_tooltip_in_field
      (p : FormField.Props) (ctx : FormField.Context) (fa : FormField.FieldArgs) :
  occurs Tag.FormFieldErrorReason (FormField.renderField p ctx fa)
  = showsErrorMessage p ctx.
Proof.
  unfold FormField.renderField, FormField.renderControl,
    FormField.controlProps, spread, node_and.
  rewrite renderErrorState_cases.
  destruct (showsErrorMessage p ctx);
    destruct (truthy (FormModel.getFieldState (FormField.getModel ctx)
                        (FormField.name p) (VStr "showReturnButton")));
    repeat occurs_step;
    rewrite !existsb_app, rest_has_no_element; reflexivity.
Qed.

Lemma occurs_tooltip_in_bar (p : FormField.Props) (ctx : FormField.Context) :
  occurs Tag.FormFieldErrorReason (FormField.renderSaveBar p ctx) = false.
Proof.
  unfold FormField.renderSaveBar.
  destruct (negb (truthy (FormModel.getFieldState (FormField.getModel ctx)
                            (FormField.name p) (VStr "showSave"))));
    reflexivity.
Qed.

(** X8: the error tooltip occurs in the output of [render] exactly when the
    model's error for the field is truthy and [hideErrorMessage] is not; it
    then sits in the [errorState] prop of FieldControl and shows that error. *)
Theorem error_tooltip_shown_iff
        (p : FormField.Props) (ctx : FormField.Context) (fa : FormField.FieldArgs) :
  occurs Tag.FormFieldErrorReason (FormField.render p ctx fa)
  = truthy (FormModel.getError (FormField.form ctx) (FormField.name p))
    && negb (truthy (FormField.hideErrorMessage p))
  /\ exists ps ch,
      child_at [0; 0]%nat (FormField.render p ctx fa)
      = Some (NElem Tag.FieldControl ps ch)
      /\ prop_of "errorState" ps
         = Some (PNode
                   (NElem Tag.Observer []
                      [if truthy (FormModel.getError (FormField.form ctx)
                                    (FormField.name p))
                          && negb (truthy (FormField.hideErrorMessage p))
                       then NElem Tag.FormFieldErrorReason []
                              [NVal (FormModel.getError (FormField.form ctx)
                                       (FormField.name p))]
                       else NVal VNull])).
Proof.
  split.
  - rewrite occurs_render, occurs_tooltip_in_field, occurs_tooltip_in_bar.
    cbn [Tag.eqb orb]. rewrite andb_false_r, orb_false_r. reflexivity.
  - eexists. eexists. split; [reflexivity |].
    unfold prop_of. cbn [rev app assoc String.eqb Ascii.eqb Bool.eqb].
    rewrite renderErrorState_cases. reflexivity.
Qed.

(** X9: the return button occurs in the output of [render] exactly when the
    model's 'showReturnButton' state of the field is truthy; it then follows
    the control. *)
Theorem return_button_shown_iff
        (p : FormField.Props) (ctx : FormField.Context) (fa : FormField.FieldArgs) :
  occurs Tag.ReturnButtonStyled (FormField.render p ctx fa)
  = truthy (FormModel.getFieldState (FormField.form ctx) (FormField.name p)
              (VStr "showReturnButton"))
  /\ child_at [0; 0; 0; 0; 1]%nat (FormField.render p ctx fa)
     = Some (if truthy (FormModel.getFieldState (FormField.form ctx)
                          (FormField.name p) (VStr "showReturnButton"))
             then NElem Tag.ReturnButtonStyled [] []
             else NVal (FormModel.getFieldState (FormField.form ctx)
                          (FormField.name p) (VStr "showReturnButton"))).
Proof.
  split; [| reflexivity].
  rewrite occurs_render.
  assert (Hbar : occurs Tag.ReturnButtonStyled (FormField.renderSaveBar p ctx) = false).
  { unfold FormField.renderSaveBar.
    destruct (negb (truthy (FormModel.getFieldState (FormField.getModel ctx)
                              (FormField.name p) (VStr "showSave"))));
      reflexivity. }
  rewrite Hbar. cbn [Tag.eqb orb]. rewrite andb_false_r, orb_false_r.
  unfold FormField.renderField, FormField.renderControl,
    FormField.controlProps, spread, node_and, FormField.getModel.
  rewrite renderErrorState_cases.
  destruct (showsErrorMessage p ctx);
    destruct (truthy (FormModel.getFieldState (FormField.form ctx)
                        (FormField.name p) (VStr "showReturnButton")));
    repeat occurs_step;
    rewrite !existsb_app, rest_has_no_element; reflexivity.
Qed.

(** X10: the inline save bar occurs in the output of [render] exactly when
    [saveOnBlur] is given (not undefined) and falsy, which null, 0 and the
    empty string are as well as false, and the model's 'showSave' state of
    the field is truthy. *)
Theorem save_bar_shown_iff
        (p : FormField.Props) (ctx : FormField.Context) (fa : FormField.FieldArgs) :
  occurs Tag.PanelAlert (FormField.render p ctx fa)
  = negb (is_undefined (FormField.saveOnBlur p))
    && negb (truthy (FormField.saveOnBlur p))
    && truthy (FormModel.getFieldState (FormField.form ctx) (FormField.name p)
                 (VStr "showSave")).
Proof.
  rewrite occurs_render, (renderField_has_no_bar Tag.PanelAlert p ctx fa eq_refl).
  cbn [Tag.eqb orb].
  unfold FormField.saveOnBlurFieldOverride, FormField.renderSaveBar,
    FormField.getModel.
  destruct (negb (is_undefined (FormField.saveOnBlur p))
            && negb (truthy (FormField.saveOnBlur p))); [| reflexivity].
  destruct (truthy (FormModel.getFieldState (FormField.form ctx)
                      (FormField.name p) (VStr "showSave"))); reflexivity.
Qed.

(* ------------------------------------------------------------------ *)
(** ** The props of the control and of Field *)

Lemma assoc_app {A : Type} (k : string) (a b : list (string * A)) :
  assoc k (a ++ b)
  = match assoc k a with Some x => Some x | None => assoc k b end.
Proof.
  induction a as [| [k' x] a IH]; simpl; [reflexivity |].
  destruct (k =? k')%string; [reflexivity | exact IH].
Qed.

(** Of two lists of bindings, the later one is asked first. *)
Lemma prop_of_app (k : string) (a b : props_t) :
  prop_of k (a ++ b)
  = match prop_of k b with Some x => Some x | None => prop_of k a end.
Proof.
  unfold prop_of. rewrite rev_app_distr. apply assoc_app.
Qed.

Lemma prop_of_values (k : string) (l : list (string * value)) :
  prop_of k (map (fun kv => (fst kv, PVal (snd kv))) l)
  = option_map PVal (assoc k (rev l)).
Proof.
  unfold prop_of. rewrite <- map_rev.
  induction (rev l) as [| [k' x] r IH]; simpl; [reflexivity |].
  destruct (k =? k')%string; [reflexivity | exact IH].
Qed.

(** Among the caller's props, those the component does not name come last. *)
Lemma prop_of_rest (k : string) (p : FormField.Props) :
  prop_of k (FormField.rest p)
  = match caller_prop k p with
    | Some v => Some (PVal v)
    | None =>
        prop_of k (FormField.callback_prop "onChange" (FormField.onChange p)
                   ++ FormField.callback_prop "onBlur" (FormField.onBlur p)
                   ++ FormField.callback_prop "onKeyDown" (FormField.onKeyDown p))
    end.
Proof.
  unfold FormField.rest, caller_prop.
  rewrite !app_assoc. rewrite prop_of_app, prop_of_values.
  destruct (assoc k (rev (FormField.others p))); reflexivity.
Qed.

Lemma prop_of_single (k k' : string) (x : prop node) :
  prop_of k [(k', x)] = if (k =? k')%string then Some x else None.
Proof. reflexivity. Qed.

Lemma prop_of_snoc (k k' : string) (x : prop node) (ps : props_t) :
  prop_of k (ps ++ [(k', x)]) = if (k =? k')%string then Some x else prop_of k ps.
Proof.
  rewrite prop_of_app, prop_of_single.
  destruct (k =? k')%string; reflexivity.
Qed.

(** The props of the control, one binding after the other. *)
Lemma controlProps_bindings
      (p : FormField.Props) (ctx : FormField.Context) (fa : FormField.FieldArgs) :
  FormField.controlProps p ctx fa
  = ((((((((([("innerRef", PInputMount)] ++ FormField.rest p)
            ++ [("name", PVal (VStr (FormField.name p)))])
           ++ [("id", PVal (VStr (FormField.name p)))])
          ++ [("onKeyDown", PBound Bound.handleKeyDown)])
         ++ [("onChange", PBound Bound.handleChange)])
        ++ [("onBlur", PBound Bound.handleBlur)])
       ++ [("value",
            PVal (if is_null (FormModel.getValue (FormField.form ctx) (FormField.name p))
                  then VStr ""
                  else FormModel.getValue (FormField.form ctx) (FormField.name p)))])
      ++ [("error", PVal (FormModel.getError (FormField.form ctx) (FormField.name p)))])
     ++ [("disabled", PVal (FormField.disabled fa))])
    ++ [("initialData", PVal (FormModel.initialData (FormField.form ctx)))].
Proof.
  unfold FormField.controlProps, spread.
  rewrite <- !app_assoc. reflexivity.
Qed.

Lemma is_control_key_false (k : string) :
  is_control_key k = false ->
  (k =? "name")%string = false /\ (k =? "id")%string = false
  /\ (k =? "onKeyDown")%string = false /\ (k =? "onChange")%string = false
  /\ (k =? "onBlur")%string = false /\ (k =? "value")%string = false
  /\ (k =? "error")%string = false /\ (k =? "disabled")%string = false
  /\ (k =? "initialData")%string = false.
Proof.
  unfold is_control_key, control_keys. cbn [existsb].
  intros H.
  repeat (apply orb_false_elim in H; destruct H as [? H]).
  repeat split; assumption.
Qed.

(** X11: whatever props the caller gives, the control is given the
    handlers of the FormField as [onKeyDown], [onChange] and [onBlur], the
    field's name as both [name] and [id], the model's error and initial data,
    and the [disabled] flag Field computed: a caller's prop of one of these
    names never reaches the control. *)
Theorem control_props_are_fixed
        (p : FormField.Props) (ctx : FormField.Context) (fa : FormField.FieldArgs) :
  let ps := FormField.controlProps p ctx fa in
  prop_of "onKeyDown" ps = Some (PBound Bound.handleKeyDown)
  /\ prop_of "onChange" ps = Some (PBound Bound.handleChange)
  /\ prop_of "onBlur" ps = Some (PBound Bound.handleBlur)
  /\ prop_of "name" ps = Some (PVal (VStr (FormField.name p)))
  /\ prop_of "id" ps = Some (PVal (VStr (FormField.name p)))
  /\ prop_of "error" ps
     = Some (PVal (FormModel.getError (FormField.form ctx) (FormField.name p)))
  /\ prop_of "disabled" ps = Some (PVal (FormField.disabled fa))
  /\ prop_of "initialData" ps
     = Some (PVal (FormModel.initialData (FormField.form ctx))).
Proof.
  cbv zeta.
  unfold prop_of, FormField.controlProps, spread.
  rewrite !rev_app_distr.
  repeat split.
Qed.

(** X12: every other prop the caller gives reaches the control with the
    caller's value. *)
Theorem control_gets_callers_props
        (p : FormField.Props) (ctx : FormField.Context) (fa : FormField.FieldArgs)
        (k : string) (v : value) :
  is_control_key k = false ->
  caller_prop k p = Some v ->
  prop_of k (FormField.controlProps p ctx fa) = Some (PVal v).
Proof.
  intros Hk Hv.
  destruct (is_control_key_false k Hk)
    as (H1 & H2 & H3 & H4 & H5 & H6 & H7 & H8 & H9).
  rewrite controlProps_bindings.
  rewrite prop_of_snoc, H9, prop_of_snoc, H8, prop_of_snoc, H7, prop_of_snoc, H6,
    prop_of_snoc, H5, prop_of_snoc, H4, prop_of_snoc, H3, prop_of_snoc, H2,
    prop_of_snoc, H1.
  rewrite prop_of_app, prop_of_rest, Hv. reflexivity.
Qed.

Lemma control_gets_callers_props_witness :
  is_control_key "label" = false
  /\ caller_prop "label" (Example.props VUndefined None) = Some (VStr "Email")
  /\ prop_of "label"
       (FormField.controlProps (Example.props VUndefined None)
          (Example.context "" (Example.model VNull VUndefined)) Example.fieldArgs)
     = Some (PVal (VStr "Email")).
Proof.
  split; [reflexivity | split; [reflexivity |]].
  apply (control_gets_callers_props
           (Example.props VUndefined None)
           (Example.context "" (Example.model VNull VUndefined))
           Example.fieldArgs "label" (VStr "Email")); reflexivity.
Defined.

(** X13: the ref callback of the control is handleInputMount unless the
    caller gives an [innerRef] prop of its own, which replaces it, so that
    the field then never autofocuses. *)
Theorem innerRef_of_caller_replaces_handleInputMount
        (p : FormField.Props) (ctx : FormField.Context) (fa : FormField.FieldArgs) :
  prop_of "innerRef" (FormField.controlProps p ctx fa)
  = match caller_prop "innerRef" p with
    | Some v => Some (PVal v)
    | None => Some PInputMount
    end.
Proof.
  rewrite controlProps_bindings.
  rewrite !prop_of_snoc. simpl String.eqb. cbv iota.
  rewrite prop_of_app, prop_of_rest.
  destruct (caller_prop "innerRef" p); [reflexivity |].
  destruct (FormField.onChange p), (FormField.onBlur p), (FormField.onKeyDown p);
    reflexivity.
Qed.







(* ------------------------------------------------------------------ *)
(** ** Further properties of the autofocus *)

Lemma mounts_first_named (p : FormField.Props) (rs : list (FormField.Context * ref)) :
  all_elements rs ->
  forall input tr,
    FormField.input_truthy input = false ->
    exists input',
      FormField.mounts p input rs tr
      = (Ok input',
         tr ++ match first_named p rs with
               | Some (_, RefElement el) => [CallFocus el]
               | _ => []
               end).
Proof.
  induction 1 as [| [ctx r] rs Hr Hrs IH]; intros input tr Hin.
  - exists input. cbn [first_named find]. rewrite app_nil_r. reflexivity.
  - rewrite mounts_cons, handleInputMount_step.
    destruct r as [| el]; [discriminate Hr |].
    rewrite Hin. unfold first_named. cbn [find fst].
    destruct (fragment_names_field p ctx).
    + destruct (mounts_after_stored p rs Hrs (Some (RefElement el))
                  (tr ++ [CallFocus el]) eq_refl) as [input' [Hm _]].
      exists input'. exact Hm.
    + apply IH. exact Hin.
Qed.

(** X16: across ref callbacks that all carry an element, on a field that
    holds no element yet, focus goes to the element of the first callback at
    which the fragment is [#<name>], also when that is not the first callback
    (the location changed in between), and to none if there is no such
    callback. *)
Theorem autofocus_at_first_named_callback
        (p : FormField.Props) (rs : list (FormField.Context * ref))
        (input : FormField.input_t) :
  all_elements rs ->
  FormField.input_truthy input = false ->
  exists input',
    run (FormField.mounts p input rs)
    = (Ok input',
       match first_named p rs with
       | Some (_, RefElement el) => [CallFocus el]
       | _ => []
       end).
Proof.
  intros Hrs Hin.
  destruct (mounts_first_named p rs Hrs input [] Hin) as [input' Hm].
  exists input'. exact Hm.
Qed.

Lemma autofocus_at_first_named_callback_witness :
  let p := Example.props VUndefined None in
  let m := Example.model VNull VUndefined in
  let rs := [(Example.context "#other" m, RefElement 1);
             (Example.context "#email" m, RefElement 2);
             (Example.context "#email" m, RefElement 3)] in
  all_elements rs
  /\ FormField.input_truthy None = false
  /\ exists input', run (FormField.mounts p None rs) = (Ok input', [CallFocus 2]).
Proof.
  cbv zeta.
  split; [repeat constructor | split; [reflexivity |]].
  apply (autofocus_at_first_named_callback
           (Example.props VUndefined None)
           [(Example.context "#other" (Example.model VNull VUndefined), RefElement 1);
            (Example.context "#email" (Example.model VNull VUndefined), RefElement 2);
            (Example.context "#email" (Example.model VNull VUndefined), RefElement 3)]
           None).
  - repeat constructor.
  - reflexivity.
Defined.

(** X17: on a field that holds no element ([this.input] undefined or null),
    while the fragment does not name the field, a mounted element is not
    recorded: after any number of callbacks with an element, [this.input] is
    what it was, and nothing was called. *)
Theorem unnamed_field_records_no_element
        (p : FormField.Props) (rs : list (FormField.Context * ref))
        (input : FormField.input_t) :
  never_named p rs ->
  all_elements rs ->
  FormField.input_truthy input = false ->
  run (FormField.mounts p input rs) = (Ok input, []).
Proof.
  unfold run. generalize (@nil call) as tr.
  intros tr Hnn. revert tr.
  induction Hnn as [| [ctx r] rs Hr _ IH]; intros tr Hel Hin.
  - reflexivity.
  - inversion Hel as [| cr rs' Hr' Hel']; subst.
    rewrite mounts_cons, handleInputMount_step.
    destruct r as [| el]; [discriminate Hr' |].
    cbn [fst] in Hr. rewrite Hin, Hr.
    apply IH; assumption.
Qed.

Lemma unnamed_field_records_no_element_witness :
  let p := Example.props VUndefined None in
  let ctx := Example.context "#other" (Example.model VNull VUndefined) in
  let rs := [(ctx, RefElement 1); (ctx, RefElement 1)] in
  never_named p rs
  /\ all_elements rs
  /\ FormField.input_truthy None = false
  /\ run (FormField.mounts p None rs) = (Ok None, []).
Proof.
  cbv zeta.
  split; [repeat constructor | split; [repeat constructor | split; [reflexivity |]]].
  apply (unnamed_field_records_no_element
           (Example.props VUndefined None)
           [(Example.context "#other" (Example.model VNull VUndefined), RefElement 1);
            (Example.context "#other" (Example.model VNull VUndefined), RefElement 1)]
           None).
  - repeat constructor.
  - repeat constructor.
  - reflexivity.
Defined.

Lemma mounts_calls (p : FormField.Props) (rs : list (FormField.Context * ref)) :
  forall input tr,
    exists input' calls,
      FormField.mounts p input rs tr = (Ok input', tr ++ calls)
      /\ Forall (focus_of_named p rs) calls.
Proof.
  induction rs as [| [ctx r] rs IH]; intros input tr.
  - exists input, []. rewrite app_nil_r. split; [reflexivity | constructor].
  - rewrite mounts_cons, handleInputMount_step.
    assert (Hweak : forall calls,
               Forall (focus_of_named p rs) calls ->
               Forall (focus_of_named p ((ctx, r) :: rs)) calls).
    { intros calls Hc. eapply Forall_impl; [| exact Hc].
      intros c (ctx' & el & Hc1 & Hc2 & Hc3).
      exists ctx', el. repeat split; [exact Hc1 | right; exact Hc2 | exact Hc3]. }
    destruct r as [| el].
    + destruct (IH (Some RefNull) tr) as [input' [calls [Hm Hc]]].
      exists input', calls. split; [exact Hm | apply Hweak, Hc].
    + destruct (FormField.input_truthy input).
      * destruct (IH (Some (RefElement el)) tr) as [input' [calls [Hm Hc]]].
        exists input', calls. split; [exact Hm | apply Hweak, Hc].
      * destruct (fragment_names_field p ctx) eqn:Hnamed.
        -- destruct (IH (Some (RefElement el)) (tr ++ [CallFocus el]))
             as [input' [calls [Hm Hc]]].
           exists input', (CallFocus el :: calls).
           rewrite <- app_assoc in Hm. split; [exact Hm |].
           constructor; [| apply Hweak, Hc].
           exists ctx, el. repeat split; [left; reflexivity | exact Hnamed].
        -- destruct (IH input tr) as [input' [calls [Hm Hc]]].
           exists input', calls. split; [exact Hm | apply Hweak, Hc].
Qed.

(** X18: whatever the sequence of ref callbacks, null ones included, and
    whatever the location is (absent, or not an object), handleInputMount
    never throws, and all it ever calls is [focus], on an element of the
    sequence, at a callback at which the fragment is [#<name>]. *)
Theorem mounts_only_focus_named_elements
        (p : FormField.Props) (rs : list (FormField.Context * ref))
        (input : FormField.input_t) :
  exists input' tr,
    run (FormField.mounts p input rs) = (Ok input', tr)
    /\ Forall (focus_of_named p rs) tr.
Proof.
  destruct (mounts_calls p rs input []) as [input' [calls [Hm Hc]]].
  exists input', calls. split; [exact Hm | exact Hc].
Qed.
